(** * Steel connection limit states (src/Steel/bolt.py, connected_element.py, weld.py)

    Shallow embedding of the three Python modules.  Floating-point magnitudes
    are modelled as exact rationals [Q]; the float constants the code takes
    from [math] ([math.pi], [math.sqrt(2)]) are their printed decimal values.
    The [pint] unit registry is modelled by a closed set of units, each with a
    physical dimension and an exact scale to the canonical unit of that
    dimension (inch, ksi, kip); [.to(...)] converts exactly or raises a
    dimensionality error.  Raised Python exceptions are the [Err] branch of a
    small result monad. *)

From Stdlib Require Import QArith Qminmax String ZArith Bool Lqa.
Open Scope string_scope.
Open Scope Q_scope.

(** ** Exceptions and the result monad *)

Inductive py_error : Type :=
  | ValueError (msg : string)
  | DimensionalityError
  | UnboundLocalError (name : string)
  | ZeroDivisionError.

Inductive result (A : Type) : Type :=
  | Ok (a : A)
  | Err (e : py_error).
Arguments Ok {A} a.
Arguments Err {A} e.

Definition bind {A B} (r : result A) (k : A -> result B) : result B :=
  match r with
  | Ok a => k a
  | Err e => Err e
  end.

Notation "x <- r ;; k" := (bind r (fun x => k))
  (at level 61, r at next level, right associativity).

Definition res_map {A B} (f : A -> B) (r : result A) : result B :=
  match r with
  | Ok a => Ok (f a)
  | Err e => Err e
  end.

(** Python's float division: dividing by zero raises. *)
Definition pdiv (a b : Q) : result Q :=
  if Qeq_bool b 0 then Err ZeroDivisionError else Ok (a / b).

(** Python's [<] on floats. *)
Definition Qltb (a b : Q) : bool := negb (Qle_bool b a).

(** Python's builtin [min(a, b)]: the first argument unless the second is
    strictly smaller. *)
Definition py_min (a b : Q) : Q := if Qltb b a then b else a.

(** ** Units (the part of [pint] the code relies on) *)

Inductive dimension : Type := Length | Stress | Force | Dimensionless.

Definition dim_eqb (a b : dimension) : bool :=
  match a, b with
  | Length, Length | Stress, Stress | Force, Force
  | Dimensionless, Dimensionless => true
  | _, _ => false
  end.

Inductive unit : Type :=
  | inch | foot | millimeter | meter
  | ksi | psi
  | kip | pound_force
  | dimensionless.

Definition unit_dim (u : unit) : dimension :=
  match u with
  | inch | foot | millimeter | meter => Length
  | ksi | psi => Stress
  | kip | pound_force => Force
  | dimensionless => Dimensionless
  end.

(** Exact scale of a unit relative to inch, ksi and kip. *)
Definition unit_scale (u : unit) : Q :=
  match u with
  | inch => 1
  | foot => 12
  | millimeter => 10 # 254
  | meter => 10000 # 254
  | ksi => 1
  | psi => 1 # 1000
  | kip => 1
  | pound_force => 1 # 1000
  | dimensionless => 1
  end.

Record quantity : Type := qty { q_mag : Q; q_unit : unit }.

Definition q_dim (q : quantity) : dimension := unit_dim (q_unit q).

(** [q.to(u)], returning the magnitude in [u]. *)
Definition to (q : quantity) (u : unit) : result Q :=
  if dim_eqb (q_dim q) (unit_dim u)
  then Ok (Qred (q_mag q * unit_scale (q_unit q) / unit_scale u))
  else Err DimensionalityError.

(** ** Design method dispatch, as written in every limit state *)

Definition invalid_method : py_error :=
  ValueError "Invalid design method. Use 'ASD' or 'LRFD'.".

(** [if design_method == "ASD": return r_n / fos
     elif design_method == "LRFD": return str_reduction * r_n
     else: raise ValueError(...)] *)
Definition design_single (design_method : string) (fos str_reduction r_n : Q)
  : result Q :=
  if String.eqb design_method "ASD" then Ok (r_n / fos)
  else if String.eqb design_method "LRFD" then Ok (str_reduction * r_n)
  else Err invalid_method.

(** The same dispatch for the functions returning one value per part. *)
Definition design_pair (design_method : string) (fos str_reduction r_n1 r_n2 : Q)
  : result (Q * Q) :=
  if String.eqb design_method "ASD" then Ok (r_n1 / fos, r_n2 / fos)
  else if String.eqb design_method "LRFD"
  then Ok (str_reduction * r_n1, str_reduction * r_n2)
  else Err invalid_method.

(** ** bolt.py *)

Definition math_pi : Q := 3.141592653589793.

Definition nominal_fastener_strength (f_u : quantity) : result (Q * Q) :=
  f_u <- to f_u ksi ;;
  let f_nv := 0.45 * f_u in
  let f_nt := 0.75 * f_u in
  Ok (f_nv, f_nt).

Definition shear_strength_bolts (design_method : string) (bolt_dia f_u : quantity)
  : result Q :=
  fs <- nominal_fastener_strength f_u ;;
  let f_nv := fst fs in
  bolt_dia <- to bolt_dia inch ;;
  let r_n := f_nv * (math_pi / 4) * (bolt_dia * bolt_dia) in
  design_single design_method 2.00 0.75 r_n.

Definition bearing_strength_bolts (design_method : string)
  (bolt_dia part1_t part1_ult part2_t part2_ult : quantity) : result (Q * Q) :=
  bolt_dia <- to bolt_dia inch ;;
  part1_t <- to part1_t inch ;;
  part2_t <- to part2_t inch ;;
  part1_ult <- to part1_ult ksi ;;
  part2_ult <- to part2_ult ksi ;;
  let r_n1 := 2.4 * bolt_dia * part1_t * part1_ult in
  let r_n2 := 2.4 * bolt_dia * part2_t * part2_ult in
  design_pair design_method 2.00 0.75 r_n1 r_n2.

Definition tearout_strength_bolts (design_method : string)
  (bolt_dia part1_edge_dist part2_edge_dist part1_t part1_ult part2_t part2_ult
   : quantity) : result (Q * Q) :=
  bolt_dia <- to bolt_dia inch ;;
  part1_edge_dist <- to part1_edge_dist inch ;;
  part2_edge_dist <- to part2_edge_dist inch ;;
  part1_t <- to part1_t inch ;;
  part2_t <- to part2_t inch ;;
  part1_ult <- to part1_ult ksi ;;
  part2_ult <- to part2_ult ksi ;;
  let net_dist_1 := part1_edge_dist - ((bolt_dia + 0.125) / 2) in
  let net_dist_2 := part2_edge_dist - ((bolt_dia + 0.125) / 2) in
  let r_n1 := 1.2 * net_dist_1 * part1_t * part1_ult in
  let r_n2 := 1.2 * net_dist_2 * part2_t * part2_ult in
  design_pair design_method 2.00 0.75 r_n1 r_n2.

Definition tensile_strength_bolts (design_method : string) (bolt_dia f_u : quantity)
  : result Q :=
  fs <- nominal_fastener_strength f_u ;;
  let f_nt := snd fs in
  bolt_dia <- to bolt_dia inch ;;
  let r_n := f_nt * (math_pi / 4) * (bolt_dia * bolt_dia) in
  design_single design_method 2.00 0.75 r_n.

(** ** connected_element.py *)

Definition connected_elem_shear_yield_str (design_method : string)
  (part1_t part1_len part1_yield part2_t part2_len part2_yield : quantity)
  : result (Q * Q) :=
  part1_t <- to part1_t inch ;;
  part1_len <- to part1_len inch ;;
  part1_yield <- to part1_yield ksi ;;
  part2_t <- to part2_t inch ;;
  part2_len <- to part2_len inch ;;
  part2_yield <- to part2_yield ksi ;;
  let r_n1 := 0.60 * part1_yield * (part1_t * part1_len) in
  let r_n2 := 0.60 * part2_yield * (part2_t * part2_len) in
  design_pair design_method 1.50 1.00 r_n1 r_n2.

Definition connected_elem_shear_rupture_str (design_method : string)
  (bolt_dia : quantity) (bolt_count : Z)
  (part1_t part1_len part1_ult part2_t part2_len part2_ult : quantity)
  : result (Q * Q) :=
  bolt_dia <- to bolt_dia inch ;;
  part1_t <- to part1_t inch ;;
  part1_len <- to part1_len inch ;;
  part1_ult <- to part1_ult ksi ;;
  part2_t <- to part2_t inch ;;
  part2_len <- to part2_len inch ;;
  part2_ult <- to part2_ult ksi ;;
  let net_width_1 := part1_len - (bolt_dia + 0.063) * inject_Z bolt_count in
  let net_width_2 := part2_len - (bolt_dia + 0.063) * inject_Z bolt_count in
  let a_nv1 := part1_t * net_width_1 in
  let a_nv2 := part2_t * net_width_2 in
  let r_n1 := 0.60 * part1_ult * a_nv1 in
  let r_n2 := 0.60 * part2_ult * a_nv2 in
  design_pair design_method 2.00 0.75 r_n1 r_n2.

Definition connected_elem_tensile_yield_str (design_method : string)
  (part1_t part1_len part1_yield part2_t part2_len part2_yield : quantity)
  : result (Q * Q) :=
  part1_t <- to part1_t inch ;;
  part1_len <- to part1_len inch ;;
  part1_yield <- to part1_yield ksi ;;
  part2_t <- to part2_t inch ;;
  part2_len <- to part2_len inch ;;
  part2_yield <- to part2_yield ksi ;;
  let r_n1 := part1_yield * (part1_t * part1_len) in
  let r_n2 := part2_yield * (part2_t * part2_len) in
  design_pair design_method 1.67 0.90 r_n1 r_n2.

(** [shear_lag] is a plain float, [bolt_count] an int. *)
Definition connected_elem_tensile_rupture_str (design_method : string)
  (bolt_dia : quantity) (bolt_count : Z) (shear_lag : Q)
  (part1_t part1_len part1_ult part2_t part2_len part2_ult : quantity)
  : result (Q * Q) :=
  bolt_dia <- to bolt_dia inch ;;
  part1_t <- to part1_t inch ;;
  part1_len <- to part1_len inch ;;
  part1_ult <- to part1_ult ksi ;;
  part2_t <- to part2_t inch ;;
  part2_len <- to part2_len inch ;;
  part2_ult <- to part2_ult ksi ;;
  let net_width_1 := part1_len - (bolt_dia + 0.063) * inject_Z bolt_count in
  let net_width_2 := part2_len - (bolt_dia + 0.063) * inject_Z bolt_count in
  let a_nv1 := part1_t * net_width_1 in
  let a_nv2 := part2_t * net_width_2 in
  let r_n1 := part1_ult * a_nv1 * shear_lag in
  let r_n2 := part2_ult * a_nv2 * shear_lag in
  design_pair design_method 2.00 0.75 r_n1 r_n2.

(** ** weld.py *)

(** The bare floats returned by [min_weld_size]; [None] is Python's implicit
    return when no branch of the [if]/[elif] chain is taken. *)
Definition min_weld_size (part1_t part2_t : quantity) : result (option Q) :=
  part1_t <- to part1_t inch ;;
  part2_t <- to part2_t inch ;;
  let t_min := py_min part1_t part2_t in
  Ok (if Qltb t_min 0.25 then Some 0.1250
      else if Qle_bool 0.25 t_min && Qltb t_min 0.5 then Some 0.1875
      else if Qle_bool 0.5 t_min && Qltb t_min 0.75 then Some 0.2500
      else if Qle_bool 0.75 t_min then Some 0.3125
      else None).

Definition math_sqrt_2 : Q := 1.4142135623730951.

(** [weld_size] is a float (sixteenths of an inch), [weld_sides] an int. *)
Definition weld_material_strength (design_method : string) (weld_size : Q)
  (weld_length : quantity) (weld_sides : Z) : result Q :=
  weld_length <- to weld_length inch ;;
  let r_n := 0.60 * 70 * (math_sqrt_2 / 2) * (weld_size / 16) * weld_length
             * inject_Z weld_sides in
  design_single design_method 2.00 0.75 r_n.

Definition weld_rupture_strength (design_method : string) (weld_size : Q)
  (weld_length : quantity) (weld_sides : Z)
  (part1_t part1_ult part2_t part2_ult : quantity) : result Q :=
  weld_length <- to weld_length inch ;;
  part1_t <- to part1_t inch ;;
  part2_t <- to part2_t inch ;;
  part1_ult <- to part1_ult ksi ;;
  part2_ult <- to part2_ult ksi ;;
  let throat_area := 0.707 * (weld_size / 16) in
  let weld_strength_per_length := 0.60 * 70 * throat_area in
  tmins <-
    (if Z.eqb weld_sides 1 then
       t1_min <- pdiv weld_strength_per_length (0.6 * part1_ult) ;;
       t2_min <- pdiv weld_strength_per_length (0.6 * part2_ult) ;;
       Ok (t1_min, t2_min)
     else if Z.eqb weld_sides 2 then
       t1_min <- pdiv (2 * weld_strength_per_length) (0.6 * part1_ult) ;;
       t2_min <- pdiv (2 * weld_strength_per_length) (0.6 * part2_ult) ;;
       Ok (t1_min, t2_min)
     else Err (UnboundLocalError "t1_min")) ;;
  reduction_1 <- pdiv part1_t (fst tmins) ;;
  reduction_2 <- pdiv part2_t (snd tmins) ;;
  weld_mat_strength <-
    weld_material_strength design_method weld_size (qty weld_length inch)
      weld_sides ;;
  if Qltb reduction_1 1 || Qltb reduction_2 1
  then Ok (weld_mat_strength * py_min reduction_1 reduction_2)
  else Ok weld_mat_strength.

(** ** Reading the results *)

(** The call succeeds with a value equal (as a number) to [v]. *)
Definition ok_eq (r : result Q) (v : Q) : Prop :=
  exists x, r = Ok x /\ x == v.

(** The call succeeds with a pair equal component-wise to [(v1, v2)]. *)
Definition ok_eq2 (r : result (Q * Q)) (v1 v2 : Q) : Prop :=
  exists x1 x2, r = Ok (x1, x2) /\ x1 == v1 /\ x2 == v2.

(** Result equality with numeric equality on values. *)
Definition res_eq (r1 r2 : result Q) : Prop :=
  match r1, r2 with
  | Ok a, Ok b => a == b
  | Err e1, Err e2 => e1 = e2
  | _, _ => False
  end.

Definition swap_res {A B} (r : result (A * B)) : result (B * A) :=
  res_map (fun p => (snd p, fst p)) r.

(** The ASD/LRFD identities of the spec for a single-valued limit state. *)
Definition asd_lrfd1 (F : string -> result Q) (r_n omega phi : Q) : Prop :=
  ok_eq (F "ASD") (r_n / omega) /\ ok_eq (F "LRFD") (r_n * phi).

(** The same for a limit state returning one value per part. *)
Definition asd_lrfd2 (F : string -> result (Q * Q)) (r_n1 r_n2 omega phi : Q)
  : Prop :=
  ok_eq2 (F "ASD") (r_n1 / omega) (r_n2 / omega) /\
  ok_eq2 (F "LRFD") (r_n1 * phi) (r_n2 * phi).

(** The spec's governing strength for a valid method. *)
Definition spec_governing (design_method : string) (omega phi r_n : Q) : Q :=
  if String.eqb design_method "ASD" then r_n / omega else r_n * phi.

Definition valid_method (m : string) : Prop := m = "ASD" \/ m = "LRFD".

(** Two unit-tagged inputs describing the same physical quantity. *)
Definition same_quantity (q q' : quantity) : Prop :=
  q_dim q = q_dim q' /\
  q_mag q * unit_scale (q_unit q) == q_mag q' * unit_scale (q_unit q').

(** ** Conversion lemmas *)

Lemma to_inch (x : Q) : to (qty x inch) inch = Ok (Qred x).
Proof.
  unfold to; cbn [q_dim q_unit q_mag unit_dim dim_eqb]. f_equal.
  apply Qred_complete.
  unfold unit_scale. field.
Qed.

Lemma to_ksi (x : Q) : to (qty x ksi) ksi = Ok (Qred x).
Proof.
  unfold to; cbn [q_dim q_unit q_mag unit_dim dim_eqb]. f_equal.
  apply Qred_complete.
  unfold unit_scale. field.
Qed.

Lemma to_same (q q' : quantity) (u : unit) :
  same_quantity q q' -> to q u = to q' u.
Proof.
  intros [Hd Hm]. unfold to. rewrite Hd.
  destruct (dim_eqb (q_dim q') (unit_dim u)); [|reflexivity].
  f_equal. apply Qred_complete. rewrite Hm. reflexivity.
Qed.

Lemma to_wrong_dim (q : quantity) (u : unit) :
  q_dim q <> unit_dim u -> to q u = Err DimensionalityError.
Proof.
  intros H. unfold to.
  destruct (q_dim q), (unit_dim u); simpl; try reflexivity; now elim H.
Qed.

Lemma to_ok_dim (q : quantity) (u : unit) :
  q_dim q = unit_dim u -> to q u = Ok (Qred (q_mag q * unit_scale (q_unit q) / unit_scale u)).
Proof.
  intros H. unfold to. rewrite H. destruct (unit_dim u); reflexivity.
Qed.

Lemma Qred_idem (x : Q) : Qred (Qred x) = Qred x.
Proof. apply Qred_complete, Qred_correct. Qed.

Lemma Qmult_comm_eq (x y : Q) : x * y = y * x.
Proof.
  destruct x as [a b], y as [c d]. unfold Qmult; simpl.
  now rewrite Z.mul_comm, Pos.mul_comm.
Qed.

Ltac canon :=
  repeat (rewrite ?to_inch, ?to_ksi; simpl bind).

Ltac close_ok :=
  repeat (match goal with
          | |- ok_eq _ _ => eexists; split; [reflexivity |]
          | |- ok_eq2 _ _ _ => eexists; eexists; split; [reflexivity | split]
          | |- asd_lrfd1 _ _ _ _ => split
          | |- asd_lrfd2 _ _ _ _ _ => split
          end);
  rewrite ?Qred_correct; try ring.

(** C1: every limit state divides its nominal strength by its safety factor
    under ASD and multiplies it by its reduction factor under LRFD, with the
    codified pairs (2.00, 0.75), (1.50, 1.00) for shear yield and
    (1.67, 0.90) for tensile yield. *)
Theorem limit_state_factors :
  (forall d fu,
     asd_lrfd1 (fun m => shear_strength_bolts m (qty d inch) (qty fu ksi))
       (0.45 * fu * (math_pi / 4) * (d * d)) 2.00 0.75) /\
  (forall d fu,
     asd_lrfd1 (fun m => tensile_strength_bolts m (qty d inch) (qty fu ksi))
       (0.75 * fu * (math_pi / 4) * (d * d)) 2.00 0.75) /\
  (forall d t1 u1 t2 u2,
     asd_lrfd2 (fun m => bearing_strength_bolts m (qty d inch)
                  (qty t1 inch) (qty u1 ksi) (qty t2 inch) (qty u2 ksi))
       (2.4 * d * t1 * u1) (2.4 * d * t2 * u2) 2.00 0.75) /\
  (forall d e1 e2 t1 u1 t2 u2,
     asd_lrfd2 (fun m => tearout_strength_bolts m (qty d inch)
                  (qty e1 inch) (qty e2 inch)
                  (qty t1 inch) (qty u1 ksi) (qty t2 inch) (qty u2 ksi))
       (1.2 * (e1 - (d + 0.125) / 2) * t1 * u1)
       (1.2 * (e2 - (d + 0.125) / 2) * t2 * u2) 2.00 0.75) /\
  (forall t1 l1 y1 t2 l2 y2,
     asd_lrfd2 (fun m => connected_elem_shear_yield_str m
                  (qty t1 inch) (qty l1 inch) (qty y1 ksi)
                  (qty t2 inch) (qty l2 inch) (qty y2 ksi))
       (0.60 * y1 * (t1 * l1)) (0.60 * y2 * (t2 * l2)) 1.50 1.00) /\
  (forall d n t1 l1 u1 t2 l2 u2,
     asd_lrfd2 (fun m => connected_elem_shear_rupture_str m (qty d inch) n
                  (qty t1 inch) (qty l1 inch) (qty u1 ksi)
                  (qty t2 inch) (qty l2 inch) (qty u2 ksi))
       (0.60 * u1 * (t1 * (l1 - (d + 0.063) * inject_Z n)))
       (0.60 * u2 * (t2 * (l2 - (d + 0.063) * inject_Z n))) 2.00 0.75) /\
  (forall t1 l1 y1 t2 l2 y2,
     asd_lrfd2 (fun m => connected_elem_tensile_yield_str m
                  (qty t1 inch) (qty l1 inch) (qty y1 ksi)
                  (qty t2 inch) (qty l2 inch) (qty y2 ksi))
       (y1 * (t1 * l1)) (y2 * (t2 * l2)) 1.67 0.90) /\
  (forall d n s t1 l1 u1 t2 l2 u2,
     asd_lrfd2 (fun m => connected_elem_tensile_rupture_str m (qty d inch) n s
                  (qty t1 inch) (qty l1 inch) (qty u1 ksi)
                  (qty t2 inch) (qty l2 inch) (qty u2 ksi))
       (u1 * (t1 * (l1 - (d + 0.063) * inject_Z n)) * s)
       (u2 * (t2 * (l2 - (d + 0.063) * inject_Z n)) * s) 2.00 0.75) /\
  (forall w l sides,
     asd_lrfd1 (fun m => weld_material_strength m w (qty l inch) sides)
       (0.60 * 70 * (math_sqrt_2 / 2) * (w / 16) * l * inject_Z sides)
       2.00 0.75).
Proof.
  repeat split; intros;
    unfold shear_strength_bolts, tensile_strength_bolts, nominal_fastener_strength,
      bearing_strength_bolts, tearout_strength_bolts,
      connected_elem_shear_yield_str, connected_elem_shear_rupture_str,
      connected_elem_tensile_yield_str, connected_elem_tensile_rupture_str,
      weld_material_strength;
    canon; close_ok.
Qed.

Lemma prod3_nonpos (a b c : Q) : 0 <= a -> 0 <= b -> c <= 0 -> a * (b * c) <= 0.
Proof.
  intros Ha Hb Hc.
  assert (0 <= a * (b * (- c))) by
    (apply Qmult_le_0_compat; [exact Ha | apply Qmult_le_0_compat; lra]).
  setoid_replace (a * (b * c)) with (- (a * (b * (- c)))) by ring. lra.
Qed.

Lemma governing_nonpos (m : string) (r : Q) :
  valid_method m -> r <= 0 -> spec_governing m 2.00 0.75 r <= 0.
Proof.
  intros [-> | ->] Hr; unfold spec_governing; simpl String.eqb; cbv iota.
  - setoid_replace (r / 2.00) with (r * (1 # 2)) by field. lra.
  - lra.
Qed.

(** Rupture nominal strength of one part with a non-positive net width. *)
Lemma rupture_nonpos (c u t l : Q) (s : Q) :
  0 <= c -> 0 <= u -> 0 <= t -> 0 <= s -> l <= 0 -> c * u * (t * l) * s <= 0.
Proof.
  intros Hc Hu Ht Hs Hl.
  assert (0 <= c * u) by (apply Qmult_le_0_compat; assumption).
  assert (c * u * (t * l) <= 0) by (apply prod3_nonpos; assumption).
  assert (0 <= - (c * u * (t * l)) * s) by (apply Qmult_le_0_compat; lra).
  setoid_replace (c * u * (t * l) * s) with (- (- (c * u * (t * l)) * s)) by ring.
  lra.
Qed.

Ltac gov_eq :=
  rewrite ?Qred_correct; unfold spec_governing; simpl String.eqb; cbv iota; ring.

(** C2: nominal fastener stresses and nominal bolt strengths. *)
Theorem bolt_nominal_strengths :
  (forall fu,
     ok_eq2 (nominal_fastener_strength (qty fu ksi)) (0.45 * fu) (0.75 * fu)) /\
  (forall m d fu, valid_method m ->
     ok_eq (shear_strength_bolts m (qty d inch) (qty fu ksi))
       (spec_governing m 2.00 0.75 (0.45 * fu * (math_pi / 4) * (d * d)))) /\
  (forall m d fu, valid_method m ->
     ok_eq (tensile_strength_bolts m (qty d inch) (qty fu ksi))
       (spec_governing m 2.00 0.75 (0.75 * fu * (math_pi / 4) * (d * d)))) /\
  (exists v,
     shear_strength_bolts "LRFD" (qty 0.75 inch) (qty 120 ksi) = Ok v /\
     v == 0.75 * (54 * (math_pi / 4) * (0.75 * 0.75)) /\
     17.885 <= v /\ v < 17.895).
Proof.
  refine (conj _ (conj _ (conj _ _))).
  - intros fu. unfold nominal_fastener_strength. canon.
    do 2 eexists; split; [reflexivity |]. split; rewrite Qred_correct; reflexivity.
  - intros m d fu [-> | ->]; unfold shear_strength_bolts, nominal_fastener_strength;
      canon; (eexists; split; [reflexivity | gov_eq]).
  - intros m d fu [-> | ->]; unfold tensile_strength_bolts, nominal_fastener_strength;
      canon; (eexists; split; [reflexivity | gov_eq]).
  - eexists; split; [vm_compute; reflexivity |].
    split; [vm_compute; reflexivity |].
    split; [apply Qle_bool_imp_le; vm_compute; reflexivity | vm_compute; reflexivity].
Qed.

(** C4: net width, net area and nominal rupture strengths of the connected
    elements, and a non-positive strength (no error) when the bolt holes take
    the whole width. *)
Theorem rupture_net_area :
  forall m d n t1 l1 u1 t2 l2 u2 s, valid_method m ->
  (exists a b,
     connected_elem_shear_rupture_str m (qty d inch) n
       (qty t1 inch) (qty l1 inch) (qty u1 ksi)
       (qty t2 inch) (qty l2 inch) (qty u2 ksi) = Ok (a, b) /\
     a == spec_governing m 2.00 0.75
            (0.60 * u1 * (t1 * (l1 - (d + 0.063) * inject_Z n))) /\
     b == spec_governing m 2.00 0.75
            (0.60 * u2 * (t2 * (l2 - (d + 0.063) * inject_Z n))) /\
     (0 <= t1 -> 0 <= u1 -> l1 - (d + 0.063) * inject_Z n <= 0 -> a <= 0) /\
     (0 <= t2 -> 0 <= u2 -> l2 - (d + 0.063) * inject_Z n <= 0 -> b <= 0)) /\
  (exists a b,
     connected_elem_tensile_rupture_str m (qty d inch) n s
       (qty t1 inch) (qty l1 inch) (qty u1 ksi)
       (qty t2 inch) (qty l2 inch) (qty u2 ksi) = Ok (a, b) /\
     a == spec_governing m 2.00 0.75
            (u1 * (t1 * (l1 - (d + 0.063) * inject_Z n)) * s) /\
     b == spec_governing m 2.00 0.75
            (u2 * (t2 * (l2 - (d + 0.063) * inject_Z n)) * s) /\
     (0 <= t1 -> 0 <= u1 -> 0 <= s -> l1 - (d + 0.063) * inject_Z n <= 0 -> a <= 0) /\
     (0 <= t2 -> 0 <= u2 -> 0 <= s -> l2 - (d + 0.063) * inject_Z n <= 0 -> b <= 0)).
Proof.
  intros m d n t1 l1 u1 t2 l2 u2 s Hm.
  pose proof Hm as Hv. destruct Hv as [-> | ->];
  split; unfold connected_elem_shear_rupture_str, connected_elem_tensile_rupture_str;
    canon; do 2 eexists; split; try reflexivity;
  (match goal with
  | |- ?x == ?g /\ ?y == ?g' /\ _ =>
      assert (E1 : x == g) by gov_eq;
      assert (E2 : y == g') by gov_eq;
      split; [exact E1 | split; [exact E2 | split]]; intros;
      [rewrite E1 | rewrite E2]; apply governing_nonpos; try exact Hm
  end);
  first
    [ match goal with
      | |- ?c * ?u * (?t * ?l) <= 0 =>
          setoid_replace (c * u * (t * l)) with (c * u * (t * l) * 1) by ring;
          apply rupture_nonpos; lra
      end
    | match goal with
      | |- ?u * (?t * ?l) * ?s <= 0 =>
          setoid_replace (u * (t * l) * s) with (1 * u * (t * l) * s) by ring;
          apply rupture_nonpos; lra
      end ].
Qed.

Lemma rupture_net_area_witness :
  valid_method "ASD" /\
  ((exists a b,
     connected_elem_shear_rupture_str "ASD" (qty 0.75 inch) 3
       (qty 0.5 inch) (qty 2 inch) (qty 58 ksi)
       (qty 0.375 inch) (qty 9 inch) (qty 58 ksi) = Ok (a, b) /\
     a == spec_governing "ASD" 2.00 0.75
            (0.60 * 58 * (0.5 * (2 - (0.75 + 0.063) * inject_Z 3))) /\
     b == spec_governing "ASD" 2.00 0.75
            (0.60 * 58 * (0.375 * (9 - (0.75 + 0.063) * inject_Z 3))) /\
     (0 <= 0.5 -> 0 <= 58 -> 2 - (0.75 + 0.063) * inject_Z 3 <= 0 -> a <= 0) /\
     (0 <= 0.375 -> 0 <= 58 -> 9 - (0.75 + 0.063) * inject_Z 3 <= 0 -> b <= 0)) /\
  (exists a b,
     connected_elem_tensile_rupture_str "ASD" (qty 0.75 inch) 3 0.85
       (qty 0.5 inch) (qty 2 inch) (qty 58 ksi)
       (qty 0.375 inch) (qty 9 inch) (qty 58 ksi) = Ok (a, b) /\
     a == spec_governing "ASD" 2.00 0.75
            (58 * (0.5 * (2 - (0.75 + 0.063) * inject_Z 3)) * 0.85) /\
     b == spec_governing "ASD" 2.00 0.75
            (58 * (0.375 * (9 - (0.75 + 0.063) * inject_Z 3)) * 0.85) /\
     (0 <= 0.5 -> 0 <= 58 -> 0 <= 0.85 -> 2 - (0.75 + 0.063) * inject_Z 3 <= 0 -> a <= 0) /\
     (0 <= 0.375 -> 0 <= 58 -> 0 <= 0.85 -> 9 - (0.75 + 0.063) * inject_Z 3 <= 0 -> b <= 0))).
Proof.
  split; [left; reflexivity |].
  apply (rupture_net_area "ASD" 0.75 3 0.5 2 58 0.375 9 58 0.85).
  left; reflexivity.
Defined.

(** ** Arithmetic facts used on the weld limit states *)

Lemma Qltb_iff (a b : Q) : Qltb a b = true <-> a < b.
Proof.
  unfold Qltb. rewrite negb_true_iff. split.
  - intros H. apply Qnot_le_lt. intros Hle.
    apply Qle_bool_iff in Hle. congruence.
  - intros H. destruct (Qle_bool b a) eqn:E; [| reflexivity].
    apply Qle_bool_iff in E. exfalso. apply (Qlt_not_le a b H E).
Qed.

Lemma Qltb_false (a b : Q) : Qltb a b = false <-> b <= a.
Proof.
  unfold Qltb. rewrite negb_false_iff. apply Qle_bool_iff.
Qed.

Lemma Qltb_compat (a a' b : Q) : a == a' -> Qltb a b = Qltb a' b.
Proof.
  intros H. unfold Qltb. f_equal.
  destruct (Qle_bool b a) eqn:E1, (Qle_bool b a') eqn:E2; try reflexivity.
  - apply Qle_bool_iff in E1. rewrite H in E1. apply Qle_bool_iff in E1. congruence.
  - apply Qle_bool_iff in E2. rewrite <- H in E2. apply Qle_bool_iff in E2. congruence.
Qed.

Lemma py_min_Qmin (a b : Q) : py_min a b == Qmin a b.
Proof.
  unfold py_min. destruct (Qltb b a) eqn:E.
  - apply Qltb_iff in E. rewrite Q.min_r; [reflexivity | now apply Qlt_le_weak].
  - apply Qltb_false in E. rewrite Q.min_l; [reflexivity | exact E].
Qed.

Lemma pdiv_ok (a b : Q) : ~ b == 0 -> pdiv a b = Ok (a / b).
Proof.
  intros H. unfold pdiv. destruct (Qeq_bool b 0) eqn:E; [| reflexivity].
  apply Qeq_bool_iff in E. contradiction.
Qed.

Lemma pdiv_zero (a b : Q) : b == 0 -> pdiv a b = Err ZeroDivisionError.
Proof.
  intros H. unfold pdiv. apply Qeq_bool_iff in H. now rewrite H.
Qed.

Lemma nz_mult (a b : Q) : ~ a == 0 -> ~ b == 0 -> ~ a * b == 0.
Proof.
  intros Ha Hb H. apply Qmult_integral in H. tauto.
Qed.

Lemma nz_inv (b : Q) : ~ b == 0 -> ~ / b == 0.
Proof.
  intros Hb H. assert (E : b * / b == 1) by (apply Qmult_inv_r; exact Hb).
  rewrite H, Qmult_0_r in E. discriminate.
Qed.

Lemma nz_div (a b : Q) : ~ a == 0 -> ~ b == 0 -> ~ a / b == 0.
Proof.
  intros Ha Hb. unfold Qdiv. apply nz_mult; [exact Ha | apply nz_inv, Hb].
Qed.

Ltac nz :=
  repeat (apply nz_div || apply nz_mult || apply nz_inv);
  first [ rewrite Qred_correct; assumption
        | assumption
        | let Hc := fresh in intro Hc; vm_compute in Hc; discriminate ].

Lemma weld_material_strength_reconvert (m : string) (w l : Q) (sides : Z) :
  weld_material_strength m w (qty (Qred l) inch) sides =
  weld_material_strength m w (qty l inch) sides.
Proof.
  unfold weld_material_strength. now rewrite !to_inch, Qred_idem.
Qed.

(** The base-metal thickness the spec asks for, per part. *)
Definition spec_required_t (weld_sides : Z) (weld_size part_ult : Q) : Q :=
  let per_length := 0.60 * 70 * (0.707 * (weld_size / 16)) in
  if Z.eqb weld_sides 2 then 2 * per_length / (0.6 * part_ult)
  else per_length / (0.6 * part_ult).

(** C3: weld metal governs when both base-metal reductions are at least 1;
    otherwise the weld material strength is scaled by the smaller reduction. *)
Theorem weld_rupture_governing :
  forall m w l sides t1 u1 t2 u2,
  (sides = 1 \/ sides = 2)%Z -> ~ w == 0 -> ~ u1 == 0 -> ~ u2 == 0 ->
  let reduction_1 := t1 / spec_required_t sides w u1 in
  let reduction_2 := t2 / spec_required_t sides w u2 in
  let rupture := weld_rupture_strength m w (qty l inch) sides
                   (qty t1 inch) (qty u1 ksi) (qty t2 inch) (qty u2 ksi) in
  let material := weld_material_strength m w (qty l inch) sides in
  (1 <= reduction_1 -> 1 <= reduction_2 -> rupture = material) /\
  (reduction_1 < 1 \/ reduction_2 < 1 ->
   res_eq rupture (res_map (fun x => x * Qmin reduction_1 reduction_2) material)).
Proof.
  intros m w l sides t1 u1 t2 u2 Hs Hw Hu1 Hu2 r1 r2 rupture material.
  subst rupture material r1 r2.
  unfold weld_rupture_strength. canon.
  rewrite weld_material_strength_reconvert.
  unfold spec_required_t.
  destruct Hs as [-> | ->]; simpl Z.eqb; cbv iota;
  (rewrite 2!pdiv_ok by nz; simpl bind;
   rewrite 2!pdiv_ok by nz; simpl bind; simpl fst; simpl snd;
   destruct (weld_material_strength m w (qty l inch) _) as [x | e];
   simpl bind; simpl res_map;
   first [ split; intros; reflexivity | idtac ];
   match goal with
   | |- context [Qltb (?c1 / ?d1) 1 || Qltb (?c2 / ?d2) 1] =>
       match goal with
       | |- context [?s1 / ?e1 < 1 \/ ?s2 / ?e2 < 1] =>
           assert (E1 : c1 / d1 == s1 / e1) by (rewrite !Qred_correct; reflexivity);
           assert (E2 : c2 / d2 == s2 / e2) by (rewrite !Qred_correct; reflexivity);
           rewrite (Qltb_compat _ _ 1 E1), (Qltb_compat _ _ 1 E2);
           split;
           [ intros H1 H2;
             apply Qltb_false in H1; apply Qltb_false in H2;
             rewrite H1, H2; reflexivity
           | intros H;
             destruct (Qltb (s1 / e1) 1) eqn:F1, (Qltb (s2 / e2) 1) eqn:F2;
             [ .. | exfalso; apply Qltb_false in F1; apply Qltb_false in F2;
                    destruct H as [H | H]; lra ];
             simpl; try reflexivity;
             rewrite py_min_Qmin, E1, E2; reflexivity ]
       end
   end).
Qed.

Lemma weld_rupture_governing_witness :
  (1 = 1 \/ 1 = 2)%Z /\ ~ 4 == 0 /\ ~ 58 == 0 /\ ~ 58 == 0 /\
  (let reduction_1 := 1 / spec_required_t 1 4 58 in
   let reduction_2 := 1 / spec_required_t 1 4 58 in
   let rupture := weld_rupture_strength "LRFD" 4 (qty 6 inch) 1
                    (qty 1 inch) (qty 58 ksi) (qty 1 inch) (qty 58 ksi) in
   let material := weld_material_strength "LRFD" 4 (qty 6 inch) 1 in
   (1 <= reduction_1 -> 1 <= reduction_2 -> rupture = material) /\
   (reduction_1 < 1 \/ reduction_2 < 1 ->
    res_eq rupture (res_map (fun x => x * Qmin reduction_1 reduction_2) material))).
Proof.
  split; [left; reflexivity |].
  split; [intro Hc; vm_compute in Hc; discriminate |].
  split; [intro Hc; vm_compute in Hc; discriminate |].
  split; [intro Hc; vm_compute in Hc; discriminate |].
  apply (weld_rupture_governing "LRFD" 4 6 1 1 58 1 58).
  - left; reflexivity.
  - intro Hc; vm_compute in Hc; discriminate.
  - intro Hc; vm_compute in Hc; discriminate.
  - intro Hc; vm_compute in Hc; discriminate.
Defined.

Lemma Qle_bool_false (a b : Q) : Qle_bool a b = false -> b < a.
Proof.
  intros H. apply Qnot_le_lt. intros Hle. apply Qle_bool_iff in Hle. congruence.
Qed.

Ltac qcases :=
  repeat match goal with
    | |- context [Qltb ?a ?b] =>
        let F := fresh "F" in
        destruct (Qltb a b) eqn:F; [apply Qltb_iff in F | apply Qltb_false in F]
    | |- context [Qle_bool ?a ?b] =>
        let F := fresh "F" in
        destruct (Qle_bool a b) eqn:F; [apply Qle_bool_iff in F | apply Qle_bool_false in F]
    end.

(** The [t_min] of [min_weld_size] is the smaller thickness. *)
Lemma min_weld_size_t_min (t1 t2 : Q) :
  py_min (Qred t1) (Qred t2) == Qmin t1 t2.
Proof.
  rewrite py_min_Qmin, !Qred_correct. reflexivity.
Qed.

(** C7: [min_weld_size] is a step function of the smaller thickness with the
    brackets closed on their lower bound. *)
Theorem min_weld_size_step :
  (forall t1 t2, exists r,
     min_weld_size (qty t1 inch) (qty t2 inch) = Ok (Some r) /\
     (r = 0.1250 \/ r = 0.1875 \/ r = 0.2500 \/ r = 0.3125)) /\
  (forall t1 t2, Qmin t1 t2 < 0.25 ->
     min_weld_size (qty t1 inch) (qty t2 inch) = Ok (Some 0.1250)) /\
  (forall t1 t2, 0.25 <= Qmin t1 t2 -> Qmin t1 t2 < 0.5 ->
     min_weld_size (qty t1 inch) (qty t2 inch) = Ok (Some 0.1875)) /\
  (forall t1 t2, 0.5 <= Qmin t1 t2 -> Qmin t1 t2 < 0.75 ->
     min_weld_size (qty t1 inch) (qty t2 inch) = Ok (Some 0.2500)) /\
  (forall t1 t2, 0.75 <= Qmin t1 t2 ->
     min_weld_size (qty t1 inch) (qty t2 inch) = Ok (Some 0.3125)) /\
  min_weld_size (qty 0.25 inch) (qty 0.25 inch) = Ok (Some 0.1875) /\
  min_weld_size (qty 0.75 inch) (qty 0.75 inch) = Ok (Some 0.3125).
Proof.
  refine (conj _ (conj _ (conj _ (conj _ (conj _ (conj _ _)))))).
  all: try (vm_compute; reflexivity).
  all: intros t1 t2; intros;
    unfold min_weld_size; canon;
    pose proof (min_weld_size_t_min t1 t2) as E;
    qcases; simpl;
    first [ reflexivity
          | eexists; split; [reflexivity | tauto]
          | exfalso; lra ].
Qed.

(** C8 (as stated: a negative smaller thickness yields no value) fails: a
    negative thickness falls in the lowest bracket. *)
Lemma min_weld_size_negative_counterexample :
  min_weld_size (qty (-1) inch) (qty 1 inch) = Ok (Some 0.1250) /\
  min_weld_size (qty (-1) inch) (qty 1 inch) <> Ok None.
Proof.
  split; vm_compute; [reflexivity | discriminate].
Qed.

(** C8, amended: a negative smaller thickness returns 0.1250, not [None]. *)
Theorem min_weld_size_negative :
  forall t1 t2, Qmin t1 t2 < 0 ->
  min_weld_size (qty t1 inch) (qty t2 inch) = Ok (Some 0.1250).
Proof.
  intros t1 t2 H.
  unfold min_weld_size; canon.
  pose proof (min_weld_size_t_min t1 t2) as E.
  qcases; simpl; first [reflexivity | exfalso; lra].
Qed.

Lemma min_weld_size_negative_witness :
  Qmin (-1) 1 < 0 /\
  min_weld_size (qty (-1) inch) (qty 1 inch) = Ok (Some 0.1250).
Proof.
  split; [vm_compute; reflexivity |].
  apply (min_weld_size_negative (-1) 1). vm_compute; reflexivity.
Defined.

Lemma unit_scale_nz (u : unit) : ~ unit_scale u == 0.
Proof.
  destruct u; simpl; intro Hc; vm_compute in Hc; discriminate.
Qed.

Ltac nzq :=
  repeat (apply nz_div || apply nz_mult || apply nz_inv);
  first [ rewrite Qred_correct; nzq
        | assumption
        | apply unit_scale_nz
        | let Hc := fresh in intro Hc; vm_compute in Hc; discriminate ].

Ltac conv_ok :=
  repeat (rewrite to_ok_dim by (assumption || reflexivity); cbn [bind]).

(** C6: with [weld_sides] neither 1 nor 2 (and every quantity of the expected
    dimension) the call fails, on the unbound local [t1_min]. *)
Theorem weld_rupture_bad_sides :
  forall m w wl sides t1 u1 t2 u2,
  q_dim wl = Length -> q_dim t1 = Length -> q_dim t2 = Length ->
  q_dim u1 = Stress -> q_dim u2 = Stress ->
  sides <> 1%Z -> sides <> 2%Z ->
  weld_rupture_strength m w wl sides t1 u1 t2 u2 =
  Err (UnboundLocalError "t1_min").
Proof.
  intros m w wl sides t1 u1 t2 u2 H1 H2 H3 H4 H5 Hs1 Hs2.
  unfold weld_rupture_strength. conv_ok.
  apply Z.eqb_neq in Hs1, Hs2. rewrite Hs1, Hs2. reflexivity.
Qed.

Lemma weld_rupture_bad_sides_witness :
  weld_rupture_strength "LRFD" 4 (qty 6 inch) 3
    (qty 0.5 inch) (qty 58 ksi) (qty 0.5 inch) (qty 58 ksi) =
  Err (UnboundLocalError "t1_min").
Proof.
  apply (weld_rupture_bad_sides "LRFD" 4 (qty 6 inch) 3
           (qty 0.5 inch) (qty 58 ksi) (qty 0.5 inch) (qty 58 ksi));
    try reflexivity; discriminate.
Defined.

Lemma design_single_invalid (m : string) (fos phi r : Q) :
  m <> "ASD" -> m <> "LRFD" -> design_single m fos phi r = Err invalid_method.
Proof.
  intros Ha Hl. unfold design_single.
  apply String.eqb_neq in Ha, Hl. now rewrite Ha, Hl.
Qed.

Lemma design_pair_invalid (m : string) (fos phi r1 r2 : Q) :
  m <> "ASD" -> m <> "LRFD" -> design_pair m fos phi r1 r2 = Err invalid_method.
Proof.
  intros Ha Hl. unfold design_pair.
  apply String.eqb_neq in Ha, Hl. now rewrite Ha, Hl.
Qed.

(** C5: in an otherwise valid call (every quantity of the expected
    dimension and, for the weld rupture, [weld_sides] in {1, 2} and a
    non-zero weld size and base metal strengths), a method other than "ASD"
    and "LRFD" raises the invalid-method [ValueError] and never defaults to
    either method. *)
Theorem invalid_method_raises :
  forall m, m <> "ASD" -> m <> "LRFD" ->
  (forall d fu, q_dim d = Length -> q_dim fu = Stress ->
     shear_strength_bolts m d fu = Err invalid_method) /\
  (forall d fu, q_dim d = Length -> q_dim fu = Stress ->
     tensile_strength_bolts m d fu = Err invalid_method) /\
  (forall d t1 u1 t2 u2,
     q_dim d = Length -> q_dim t1 = Length -> q_dim t2 = Length ->
     q_dim u1 = Stress -> q_dim u2 = Stress ->
     bearing_strength_bolts m d t1 u1 t2 u2 = Err invalid_method) /\
  (forall d e1 e2 t1 u1 t2 u2,
     q_dim d = Length -> q_dim e1 = Length -> q_dim e2 = Length ->
     q_dim t1 = Length -> q_dim t2 = Length ->
     q_dim u1 = Stress -> q_dim u2 = Stress ->
     tearout_strength_bolts m d e1 e2 t1 u1 t2 u2 = Err invalid_method) /\
  (forall t1 l1 y1 t2 l2 y2,
     q_dim t1 = Length -> q_dim l1 = Length -> q_dim t2 = Length ->
     q_dim l2 = Length -> q_dim y1 = Stress -> q_dim y2 = Stress ->
     connected_elem_shear_yield_str m t1 l1 y1 t2 l2 y2 = Err invalid_method) /\
  (forall d n t1 l1 u1 t2 l2 u2,
     q_dim d = Length -> q_dim t1 = Length -> q_dim l1 = Length ->
     q_dim t2 = Length -> q_dim l2 = Length ->
     q_dim u1 = Stress -> q_dim u2 = Stress ->
     connected_elem_shear_rupture_str m d n t1 l1 u1 t2 l2 u2 = Err invalid_method) /\
  (forall t1 l1 y1 t2 l2 y2,
     q_dim t1 = Length -> q_dim l1 = Length -> q_dim t2 = Length ->
     q_dim l2 = Length -> q_dim y1 = Stress -> q_dim y2 = Stress ->
     connected_elem_tensile_yield_str m t1 l1 y1 t2 l2 y2 = Err invalid_method) /\
  (forall d n s t1 l1 u1 t2 l2 u2,
     q_dim d = Length -> q_dim t1 = Length -> q_dim l1 = Length ->
     q_dim t2 = Length -> q_dim l2 = Length ->
     q_dim u1 = Stress -> q_dim u2 = Stress ->
     connected_elem_tensile_rupture_str m d n s t1 l1 u1 t2 l2 u2 = Err invalid_method) /\
  (forall w wl sides, q_dim wl = Length ->
     weld_material_strength m w wl sides = Err invalid_method) /\
  (forall w wl sides t1 u1 t2 u2,
     q_dim wl = Length -> q_dim t1 = Length -> q_dim t2 = Length ->
     q_dim u1 = Stress -> q_dim u2 = Stress ->
     (sides = 1 \/ sides = 2)%Z -> ~ w == 0 ->
     ~ q_mag u1 == 0 -> ~ q_mag u2 == 0 ->
     weld_rupture_strength m w wl sides t1 u1 t2 u2 = Err invalid_method).
Proof.
  intros m Ha Hl.
  repeat split; intros;
    unfold shear_strength_bolts, tensile_strength_bolts, nominal_fastener_strength,
      bearing_strength_bolts, tearout_strength_bolts,
      connected_elem_shear_yield_str, connected_elem_shear_rupture_str,
      connected_elem_tensile_yield_str, connected_elem_tensile_rupture_str,
      weld_material_strength;
    conv_ok;
    try (apply design_single_invalid; assumption);
    try (apply design_pair_invalid; assumption).
  unfold weld_rupture_strength. conv_ok.
  match goal with H : (_ = 1 \/ _ = 2)%Z |- _ => destruct H as [-> | ->] end;
    simpl Z.eqb; cbv iota;
    do 4 (rewrite pdiv_ok by nzq; cbn [bind]); cbn [fst snd];
    unfold weld_material_strength; conv_ok;
    rewrite design_single_invalid by assumption; reflexivity.
Qed.

Lemma invalid_method_raises_witness :
  "XYZ" <> "ASD" /\ "XYZ" <> "LRFD" /\
  weld_material_strength "XYZ" 4 (qty 6 inch) 1 = Err invalid_method.
Proof.
  split; [discriminate | split; [discriminate |]].
  apply (invalid_method_raises "XYZ"); [discriminate | discriminate | reflexivity].
Defined.

(** ** Case analysis on the conversions *)

Lemma to_err (q : quantity) (u : unit) (e : py_error) :
  to q u = Err e -> e = DimensionalityError.
Proof.
  unfold to. destruct (dim_eqb (q_dim q) (unit_dim u)); congruence.
Qed.

Lemma to_ok_dim_rev (q : quantity) (u : unit) (x : Q) :
  to q u = Ok x -> q_dim q = unit_dim u.
Proof.
  unfold to. destruct (q_dim q), (unit_dim u); simpl; congruence.
Qed.

Lemma pdiv_err (a b : Q) (e : py_error) : pdiv a b = Err e -> e = ZeroDivisionError.
Proof.
  unfold pdiv. destruct (Qeq_bool b 0); congruence.
Qed.

Ltac split_conversions :=
  repeat match goal with
    | |- context [to ?q ?u] =>
        let E := fresh "E" in let x := fresh "x" in let e := fresh "e" in
        destruct (to q u) as [x | e] eqn:E;
        [| apply to_err in E; subst e]; cbn [bind]
    end.

Ltac dim_contradiction :=
  repeat match goal with
    | E : to _ _ = Ok _ |- _ => apply to_ok_dim_rev in E; cbn [unit_dim] in E
    end;
  exfalso; intuition congruence.

Ltac invariance :=
  repeat match goal with
    | H : same_quantity ?q ?q' |- context [to ?q ?u] => rewrite (to_same q q' u H)
    end; reflexivity.

(** C9: unit-tagged inputs given in other units of the same dimension give
    the same results, and an input of another dimension makes the call fail
    with a dimensionality error. *)
Theorem unit_invariance :
  (forall f f', same_quantity f f' ->
     nominal_fastener_strength f = nominal_fastener_strength f') /\
  (forall m d d' f f', same_quantity d d' -> same_quantity f f' ->
     shear_strength_bolts m d f = shear_strength_bolts m d' f') /\
  (forall m d d' f f', same_quantity d d' -> same_quantity f f' ->
     tensile_strength_bolts m d f = tensile_strength_bolts m d' f') /\
  (forall m d d' t1 t1' u1 u1' t2 t2' u2 u2',
     same_quantity d d' -> same_quantity t1 t1' -> same_quantity u1 u1' ->
     same_quantity t2 t2' -> same_quantity u2 u2' ->
     bearing_strength_bolts m d t1 u1 t2 u2 =
     bearing_strength_bolts m d' t1' u1' t2' u2') /\
  (forall m d d' e1 e1' e2 e2' t1 t1' u1 u1' t2 t2' u2 u2',
     same_quantity d d' -> same_quantity e1 e1' -> same_quantity e2 e2' ->
     same_quantity t1 t1' -> same_quantity u1 u1' ->
     same_quantity t2 t2' -> same_quantity u2 u2' ->
     tearout_strength_bolts m d e1 e2 t1 u1 t2 u2 =
     tearout_strength_bolts m d' e1' e2' t1' u1' t2' u2') /\
  (forall m t1 t1' l1 l1' y1 y1' t2 t2' l2 l2' y2 y2',
     same_quantity t1 t1' -> same_quantity l1 l1' -> same_quantity y1 y1' ->
     same_quantity t2 t2' -> same_quantity l2 l2' -> same_quantity y2 y2' ->
     connected_elem_shear_yield_str m t1 l1 y1 t2 l2 y2 =
     connected_elem_shear_yield_str m t1' l1' y1' t2' l2' y2') /\
  (forall m d d' n t1 t1' l1 l1' u1 u1' t2 t2' l2 l2' u2 u2',
     same_quantity d d' ->
     same_quantity t1 t1' -> same_quantity l1 l1' -> same_quantity u1 u1' ->
     same_quantity t2 t2' -> same_quantity l2 l2' -> same_quantity u2 u2' ->
     connected_elem_shear_rupture_str m d n t1 l1 u1 t2 l2 u2 =
     connected_elem_shear_rupture_str m d' n t1' l1' u1' t2' l2' u2') /\
  (forall m t1 t1' l1 l1' y1 y1' t2 t2' l2 l2' y2 y2',
     same_quantity t1 t1' -> same_quantity l1 l1' -> same_quantity y1 y1' ->
     same_quantity t2 t2' -> same_quantity l2 l2' -> same_quantity y2 y2' ->
     connected_elem_tensile_yield_str m t1 l1 y1 t2 l2 y2 =
     connected_elem_tensile_yield_str m t1' l1' y1' t2' l2' y2') /\
  (forall m d d' n s t1 t1' l1 l1' u1 u1' t2 t2' l2 l2' u2 u2',
     same_quantity d d' ->
     same_quantity t1 t1' -> same_quantity l1 l1' -> same_quantity u1 u1' ->
     same_quantity t2 t2' -> same_quantity l2 l2' -> same_quantity u2 u2' ->
     connected_elem_tensile_rupture_str m d n s t1 l1 u1 t2 l2 u2 =
     connected_elem_tensile_rupture_str m d' n s t1' l1' u1' t2' l2' u2') /\
  (forall t1 t1' t2 t2', same_quantity t1 t1' -> same_quantity t2 t2' ->
     min_weld_size t1 t2 = min_weld_size t1' t2') /\
  (forall m w l l' sides, same_quantity l l' ->
     weld_material_strength m w l sides = weld_material_strength m w l' sides) /\
  (forall m w l l' sides t1 t1' u1 u1' t2 t2' u2 u2',
     same_quantity l l' -> same_quantity t1 t1' -> same_quantity u1 u1' ->
     same_quantity t2 t2' -> same_quantity u2 u2' ->
     weld_rupture_strength m w l sides t1 u1 t2 u2 =
     weld_rupture_strength m w l' sides t1' u1' t2' u2') /\
  (forall f, q_dim f <> Stress -> nominal_fastener_strength f = Err DimensionalityError) /\
  (forall m d f, q_dim d <> Length \/ q_dim f <> Stress ->
     shear_strength_bolts m d f = Err DimensionalityError) /\
  (forall m d f, q_dim d <> Length \/ q_dim f <> Stress ->
     tensile_strength_bolts m d f = Err DimensionalityError) /\
  (forall m d t1 u1 t2 u2,
     q_dim d <> Length \/ q_dim t1 <> Length \/ q_dim t2 <> Length \/
     q_dim u1 <> Stress \/ q_dim u2 <> Stress ->
     bearing_strength_bolts m d t1 u1 t2 u2 = Err DimensionalityError) /\
  (forall m d e1 e2 t1 u1 t2 u2,
     q_dim d <> Length \/ q_dim e1 <> Length \/ q_dim e2 <> Length \/
     q_dim t1 <> Length \/ q_dim t2 <> Length \/
     q_dim u1 <> Stress \/ q_dim u2 <> Stress ->
     tearout_strength_bolts m d e1 e2 t1 u1 t2 u2 = Err DimensionalityError) /\
  (forall m t1 l1 y1 t2 l2 y2,
     q_dim t1 <> Length \/ q_dim l1 <> Length \/ q_dim t2 <> Length \/
     q_dim l2 <> Length \/ q_dim y1 <> Stress \/ q_dim y2 <> Stress ->
     connected_elem_shear_yield_str m t1 l1 y1 t2 l2 y2 = Err DimensionalityError) /\
  (forall m d n t1 l1 u1 t2 l2 u2,
     q_dim d <> Length \/ q_dim t1 <> Length \/ q_dim l1 <> Length \/
     q_dim t2 <> Length \/ q_dim l2 <> Length \/
     q_dim u1 <> Stress \/ q_dim u2 <> Stress ->
     connected_elem_shear_rupture_str m d n t1 l1 u1 t2 l2 u2 = Err DimensionalityError) /\
  (forall m t1 l1 y1 t2 l2 y2,
     q_dim t1 <> Length \/ q_dim l1 <> Length \/ q_dim t2 <> Length \/
     q_dim l2 <> Length \/ q_dim y1 <> Stress \/ q_dim y2 <> Stress ->
     connected_elem_tensile_yield_str m t1 l1 y1 t2 l2 y2 = Err DimensionalityError) /\
  (forall m d n s t1 l1 u1 t2 l2 u2,
     q_dim d <> Length \/ q_dim t1 <> Length \/ q_dim l1 <> Length \/
     q_dim t2 <> Length \/ q_dim l2 <> Length \/
     q_dim u1 <> Stress \/ q_dim u2 <> Stress ->
     connected_elem_tensile_rupture_str m d n s t1 l1 u1 t2 l2 u2 =
     Err DimensionalityError) /\
  (forall t1 t2, q_dim t1 <> Length \/ q_dim t2 <> Length ->
     min_weld_size t1 t2 = Err DimensionalityError) /\
  (forall m w l sides, q_dim l <> Length ->
     weld_material_strength m w l sides = Err DimensionalityError) /\
  (forall m w l sides t1 u1 t2 u2,
     q_dim l <> Length \/ q_dim t1 <> Length \/ q_dim t2 <> Length \/
     q_dim u1 <> Stress \/ q_dim u2 <> Stress ->
     weld_rupture_strength m w l sides t1 u1 t2 u2 = Err DimensionalityError).
Proof.
  repeat split; intros;
    unfold shear_strength_bolts, tensile_strength_bolts, nominal_fastener_strength,
      bearing_strength_bolts, tearout_strength_bolts,
      connected_elem_shear_yield_str, connected_elem_shear_rupture_str,
      connected_elem_tensile_yield_str, connected_elem_tensile_rupture_str,
      min_weld_size, weld_material_strength, weld_rupture_strength;
    first
      [ invariance
      | split_conversions; first [reflexivity | dim_contradiction] ].
Qed.

Lemma design_pair_swap (m : string) (fos phi r1 r2 : Q) :
  design_pair m fos phi r2 r1 = swap_res (design_pair m fos phi r1 r2).
Proof.
  unfold design_pair.
  destruct (String.eqb m "ASD"); [reflexivity |].
  destruct (String.eqb m "LRFD"); reflexivity.
Qed.

Lemma py_min_comm (a b : Q) : py_min a b == py_min b a.
Proof.
  rewrite !py_min_Qmin. apply Q.min_comm.
Qed.

Lemma Qle_bool_compat_r (c a a' : Q) : a == a' -> Qle_bool c a = Qle_bool c a'.
Proof.
  intros H.
  destruct (Qle_bool c a) eqn:E1, (Qle_bool c a') eqn:E2; try reflexivity.
  - apply Qle_bool_iff in E1. rewrite H in E1. apply Qle_bool_iff in E1. congruence.
  - apply Qle_bool_iff in E2. rewrite <- H in E2. apply Qle_bool_iff in E2. congruence.
Qed.

Ltac split_steps :=
  repeat match goal with
    | |- context [to ?q ?u] =>
        let E := fresh "E" in let x := fresh "x" in let e := fresh "e" in
        destruct (to q u) as [x | e] eqn:E;
        [| apply to_err in E; subst e]; cbn [bind fst snd]
    | |- context [pdiv ?a ?b] =>
        let E := fresh "E" in let x := fresh "x" in let e := fresh "e" in
        destruct (pdiv a b) as [x | e] eqn:E;
        [| apply pdiv_err in E; subst e]; cbn [bind fst snd]
    | |- context [Z.eqb ?a ?b] => destruct (Z.eqb a b); cbn [bind fst snd]
    | |- context [weld_material_strength ?m ?w ?l ?s] =>
        destruct (weld_material_strength m w l s); cbn [bind fst snd]
    end.

(** C10: exchanging the part-1 and part-2 inputs swaps the per-part results
    and leaves the single-valued weld results unchanged. *)
Theorem part_swap :
  (forall m d t1 u1 t2 u2,
     bearing_strength_bolts m d t2 u2 t1 u1 =
     swap_res (bearing_strength_bolts m d t1 u1 t2 u2)) /\
  (forall m d e1 e2 t1 u1 t2 u2,
     tearout_strength_bolts m d e2 e1 t2 u2 t1 u1 =
     swap_res (tearout_strength_bolts m d e1 e2 t1 u1 t2 u2)) /\
  (forall m t1 l1 y1 t2 l2 y2,
     connected_elem_shear_yield_str m t2 l2 y2 t1 l1 y1 =
     swap_res (connected_elem_shear_yield_str m t1 l1 y1 t2 l2 y2)) /\
  (forall m d n t1 l1 u1 t2 l2 u2,
     connected_elem_shear_rupture_str m d n t2 l2 u2 t1 l1 u1 =
     swap_res (connected_elem_shear_rupture_str m d n t1 l1 u1 t2 l2 u2)) /\
  (forall m t1 l1 y1 t2 l2 y2,
     connected_elem_tensile_yield_str m t2 l2 y2 t1 l1 y1 =
     swap_res (connected_elem_tensile_yield_str m t1 l1 y1 t2 l2 y2)) /\
  (forall m d n s t1 l1 u1 t2 l2 u2,
     connected_elem_tensile_rupture_str m d n s t2 l2 u2 t1 l1 u1 =
     swap_res (connected_elem_tensile_rupture_str m d n s t1 l1 u1 t2 l2 u2)) /\
  (forall t1 t2, min_weld_size t2 t1 = min_weld_size t1 t2) /\
  (forall m w l sides t1 u1 t2 u2,
     res_eq (weld_rupture_strength m w l sides t2 u2 t1 u1)
            (weld_rupture_strength m w l sides t1 u1 t2 u2)).
Proof.
  refine (conj _ (conj _ (conj _ (conj _ (conj _ (conj _ (conj _ _))))))).
  1-6: intros;
    unfold bearing_strength_bolts, tearout_strength_bolts,
      connected_elem_shear_yield_str, connected_elem_shear_rupture_str,
      connected_elem_tensile_yield_str, connected_elem_tensile_rupture_str;
    split_steps; try reflexivity; apply design_pair_swap.
  - intros t1 t2. unfold min_weld_size. split_steps; try reflexivity.
    match goal with
    | |- Ok (if Qltb (py_min ?a ?b) _ then _ else _) = _ =>
        pose proof (py_min_comm a b) as C
    end.
    rewrite !(Qltb_compat _ _ _ C), !(Qle_bool_compat_r _ _ _ C).
    reflexivity.
  - intros. unfold weld_rupture_strength. split_steps; simpl; try reflexivity;
    match goal with
    | |- context [Qltb ?r2 1 || Qltb ?r1 1] =>
        rewrite (orb_comm (Qltb r2 1));
        destruct (Qltb r1 1 || Qltb r2 1); simpl;
        [rewrite (py_min_comm r2 r1) |]; reflexivity
    end.
Qed.

(** ** Further properties of the limit states *)

(** Result equality with numeric equality on both components of a pair. *)
Definition res_eq2 (r1 r2 : result (Q * Q)) : Prop :=
  match r1, r2 with
  | Ok (a1, b1), Ok (a2, b2) => a1 == a2 /\ b1 == b2
  | Err e1, Err e2 => e1 = e2
  | _, _ => False
  end.

Definition scale_pair (k : Q) (p : Q * Q) : Q * Q := (k * fst p, k * snd p).

Ltac design_cases :=
  unfold design_single, design_pair;
  destruct (String.eqb _ "ASD"); [| destruct (String.eqb _ "LRFD")];
  cbn [res_eq res_eq2 res_map scale_pair fst snd]; try reflexivity.

(** The tensile strength of a bolt is 5/3 of its shear strength (0.75 f_u
    against 0.45 f_u on the same area), for every method and unit, errors
    included. *)
Theorem bolt_tension_shear_ratio :
  forall m d f,
  res_eq (tensile_strength_bolts m d f)
         (res_map (fun v => (5 # 3) * v) (shear_strength_bolts m d f)).
Proof.
  intros. unfold shear_strength_bolts, tensile_strength_bolts, nominal_fastener_strength.
  split_conversions; cbn [res_eq res_map fst snd]; try reflexivity.
  design_cases; field.
Qed.

(** The LRFD strength is 1.5 times the ASD strength for every limit state
    with the (2.00, 0.75) pair and for shear yield (1.50, 1.00), and 1.503
    times it for tensile yield (1.67, 0.90); both calls fail alike otherwise. *)
Theorem lrfd_asd_ratio :
  (forall d f,
     res_eq (shear_strength_bolts "LRFD" d f)
            (res_map (Qmult 1.5) (shear_strength_bolts "ASD" d f))) /\
  (forall d f,
     res_eq (tensile_strength_bolts "LRFD" d f)
            (res_map (Qmult 1.5) (tensile_strength_bolts "ASD" d f))) /\
  (forall d t1 u1 t2 u2,
     res_eq2 (bearing_strength_bolts "LRFD" d t1 u1 t2 u2)
             (res_map (scale_pair 1.5) (bearing_strength_bolts "ASD" d t1 u1 t2 u2))) /\
  (forall d e1 e2 t1 u1 t2 u2,
     res_eq2 (tearout_strength_bolts "LRFD" d e1 e2 t1 u1 t2 u2)
             (res_map (scale_pair 1.5)
                (tearout_strength_bolts "ASD" d e1 e2 t1 u1 t2 u2))) /\
  (forall t1 l1 y1 t2 l2 y2,
     res_eq2 (connected_elem_shear_yield_str "LRFD" t1 l1 y1 t2 l2 y2)
             (res_map (scale_pair 1.5)
                (connected_elem_shear_yield_str "ASD" t1 l1 y1 t2 l2 y2))) /\
  (forall d n t1 l1 u1 t2 l2 u2,
     res_eq2 (connected_elem_shear_rupture_str "LRFD" d n t1 l1 u1 t2 l2 u2)
             (res_map (scale_pair 1.5)
                (connected_elem_shear_rupture_str "ASD" d n t1 l1 u1 t2 l2 u2))) /\
  (forall t1 l1 y1 t2 l2 y2,
     res_eq2 (connected_elem_tensile_yield_str "LRFD" t1 l1 y1 t2 l2 y2)
             (res_map (scale_pair 1.503)
                (connected_elem_tensile_yield_str "ASD" t1 l1 y1 t2 l2 y2))) /\
  (forall d n s t1 l1 u1 t2 l2 u2,
     res_eq2 (connected_elem_tensile_rupture_str "LRFD" d n s t1 l1 u1 t2 l2 u2)
             (res_map (scale_pair 1.5)
                (connected_elem_tensile_rupture_str "ASD" d n s t1 l1 u1 t2 l2 u2))) /\
  (forall w l sides,
     res_eq (weld_material_strength "LRFD" w l sides)
            (res_map (Qmult 1.5) (weld_material_strength "ASD" w l sides))).
Proof.
  repeat split; intros;
    unfold shear_strength_bolts, tensile_strength_bolts, nominal_fastener_strength,
      bearing_strength_bolts, tearout_strength_bolts,
      connected_elem_shear_yield_str, connected_elem_shear_rupture_str,
      connected_elem_tensile_yield_str, connected_elem_tensile_rupture_str,
      weld_material_strength;
    split_conversions; cbn [res_eq res_eq2 res_map scale_pair fst snd];
    try reflexivity;
    unfold design_single, design_pair; simpl String.eqb; cbv iota;
    cbn [res_eq res_eq2 res_map scale_pair fst snd];
    try split; field.
Qed.

(** Per part, the tensile rupture strength is the shear rupture strength
    times shear_lag / 0.60: the two share the net area and differ only in
    the 0.60 and shear-lag factors, for every method and unit. *)
Theorem tensile_shear_rupture_ratio :
  forall m d n s t1 l1 u1 t2 l2 u2,
  res_eq2 (connected_elem_tensile_rupture_str m d n s t1 l1 u1 t2 l2 u2)
          (res_map (scale_pair (s / 0.60))
             (connected_elem_shear_rupture_str m d n t1 l1 u1 t2 l2 u2)).
Proof.
  intros. unfold connected_elem_tensile_rupture_str, connected_elem_shear_rupture_str.
  split_conversions; cbn [res_eq2 res_map]; try reflexivity.
  design_cases; split; field.
Qed.

(** weld_material_strength never checks weld_sides: any integer count
    multiplies the one-sided strength. *)
Theorem weld_material_sides_linear :
  forall m w l sides,
  res_eq (weld_material_strength m w l sides)
         (res_map (Qmult (inject_Z sides)) (weld_material_strength m w l 1)).
Proof.
  intros. unfold weld_material_strength.
  split_conversions; cbn [res_eq res_map]; try reflexivity.
  change (inject_Z 1) with 1.
  design_cases; field.
Qed.

Lemma mono3 (a a' t u : Q) : a <= a' -> 0 <= t -> 0 <= u -> a * t * u <= a' * t * u.
Proof.
  intros Ha Ht Hu. apply Qmult_le_compat_r; [apply Qmult_le_compat_r |]; assumption.
Qed.

Lemma nonpos3 (a t u : Q) : a <= 0 -> 0 <= t -> 0 <= u -> a * t * u <= 0.
Proof.
  intros Ha Ht Hu. assert (H : a * t * u <= 0 * t * u) by (apply mono3; assumption).
  setoid_replace (0 * t * u) with 0 in H by ring. exact H.
Qed.

Lemma Qdiv_200 (x : Q) : x / 2.00 == (1 # 2) * x.
Proof. field. Qed.

Ltac method_cases Hm :=
  let Hv := fresh in pose proof Hm as Hv; destruct Hv as [-> | ->].

(** Bolt tearout gives a non-positive strength, and raises nothing, for
    each part whose edge distance does not exceed half the hole (bolt
    diameter + 1/8 in), given non-negative thickness and ultimate stress of
    that part: its clear distance goes negative.  Stated for both parts. *)
Theorem tearout_short_edge_nonpos :
  forall m d e1 e2 t1 u1 t2 u2,
  valid_method m ->
  exists r1 r2,
    tearout_strength_bolts m (qty d inch) (qty e1 inch) (qty e2 inch)
      (qty t1 inch) (qty u1 ksi) (qty t2 inch) (qty u2 ksi) = Ok (r1, r2) /\
    (e1 <= (d + 0.125) / 2 -> 0 <= t1 -> 0 <= u1 -> r1 <= 0) /\
    (e2 <= (d + 0.125) / 2 -> 0 <= t2 -> 0 <= u2 -> r2 <= 0).
Proof.
  intros m d e1 e2 t1 u1 t2 u2 Hm.
  unfold tearout_strength_bolts. canon.
  method_cases Hm; unfold design_pair; simpl String.eqb; cbv iota;
    (eexists _, _; split; [reflexivity |]);
    split; intros He Ht Hu; rewrite !Qred_correct, ?Qdiv_200;
    match goal with
    | |- context [1.2 * (?e - (d + 0.125) / 2) * ?t * ?u] =>
        assert (N : 1.2 * (e - (d + 0.125) / 2) * t * u <= 0)
          by (apply nonpos3; [lra | assumption | assumption])
    end;
    lra.
Qed.

(** Bolt tearout is monotone in each part's edge distance (for non-negative
    thicknesses and ultimate stresses), and one part's edge distance leaves
    the other part's strength unchanged.  Stated for both parts. *)
Theorem tearout_edge_monotone :
  forall m d e1 e1' e2 e2' t1 u1 t2 u2,
  valid_method m -> e1 <= e1' -> e2 <= e2' ->
  0 <= t1 -> 0 <= u1 -> 0 <= t2 -> 0 <= u2 ->
  exists r1 r2 r1' r2',
    tearout_strength_bolts m (qty d inch) (qty e1 inch) (qty e2 inch)
      (qty t1 inch) (qty u1 ksi) (qty t2 inch) (qty u2 ksi) = Ok (r1, r2) /\
    tearout_strength_bolts m (qty d inch) (qty e1' inch) (qty e2 inch)
      (qty t1 inch) (qty u1 ksi) (qty t2 inch) (qty u2 ksi) = Ok (r1', r2) /\
    tearout_strength_bolts m (qty d inch) (qty e1 inch) (qty e2' inch)
      (qty t1 inch) (qty u1 ksi) (qty t2 inch) (qty u2 ksi) = Ok (r1, r2') /\
    r1 <= r1' /\ r2 <= r2'.
Proof.
  intros m d e1 e1' e2 e2' t1 u1 t2 u2 Hm He1 He2 Ht1 Hu1 Ht2 Hu2.
  unfold tearout_strength_bolts. canon.
  method_cases Hm; unfold design_pair; simpl String.eqb; cbv iota;
    (eexists _, _, _, _;
     split; [reflexivity | split; [reflexivity | split; [reflexivity |]]]);
    rewrite !Qred_correct, ?Qdiv_200;
    (assert (N1 : 1.2 * (e1 - (d + 0.125) / 2) * t1 * u1
                  <= 1.2 * (e1' - (d + 0.125) / 2) * t1 * u1)
       by (apply mono3; [lra | assumption | assumption]));
    (assert (N2 : 1.2 * (e2 - (d + 0.125) / 2) * t2 * u2
                  <= 1.2 * (e2' - (d + 0.125) / 2) * t2 * u2)
       by (apply mono3; [lra | assumption | assumption]));
    split; lra.
Qed.

Lemma holes_monotone (c : Q) (n n' : Z) :
  0 <= c -> (n <= n')%Z -> c * inject_Z n <= c * inject_Z n'.
Proof.
  intros Hc Hn. rewrite !(Qmult_comm c).
  apply Qmult_le_compat_r; [rewrite <- Zle_Qle; exact Hn | exact Hc].
Qed.

Lemma area_monotone (u t x x' : Q) :
  x' <= x -> 0 <= t -> 0 <= u -> u * (t * x') <= u * (t * x).
Proof.
  intros Hx Ht Hu. rewrite !(Qmult_comm u), !(Qmult_comm t).
  apply Qmult_le_compat_r; [apply Qmult_le_compat_r |]; assumption.
Qed.

(** Shear rupture does not increase with the number of bolt holes (for a
    hole width d + 0.063 in and thicknesses and ultimate stresses that are
    non-negative): each hole removes net width from both parts. *)
Theorem shear_rupture_bolt_count_antitone :
  forall m d n n' t1 l1 u1 t2 l2 u2,
  valid_method m -> (n <= n')%Z -> 0 <= d + 0.063 ->
  0 <= t1 -> 0 <= u1 -> 0 <= t2 -> 0 <= u2 ->
  exists r1 r2 r1' r2',
    connected_elem_shear_rupture_str m (qty d inch) n (qty t1 inch) (qty l1 inch)
      (qty u1 ksi) (qty t2 inch) (qty l2 inch) (qty u2 ksi) = Ok (r1, r2) /\
    connected_elem_shear_rupture_str m (qty d inch) n' (qty t1 inch) (qty l1 inch)
      (qty u1 ksi) (qty t2 inch) (qty l2 inch) (qty u2 ksi) = Ok (r1', r2') /\
    r1' <= r1 /\ r2' <= r2.
Proof.
  intros m d n n' t1 l1 u1 t2 l2 u2 Hm Hn Hc Ht1 Hu1 Ht2 Hu2.
  unfold connected_elem_shear_rupture_str. canon.
  method_cases Hm; unfold design_pair; simpl String.eqb; cbv iota;
    (eexists _, _, _, _; split; [reflexivity | split; [reflexivity |]]);
    rewrite !Qred_correct, ?Qdiv_200;
    (assert (A1 : u1 * (t1 * (l1 - (d + 0.063) * inject_Z n'))
                  <= u1 * (t1 * (l1 - (d + 0.063) * inject_Z n)))
       by (apply area_monotone; [pose proof (holes_monotone _ n n' Hc Hn); lra
                                | assumption | assumption]));
    (assert (A2 : u2 * (t2 * (l2 - (d + 0.063) * inject_Z n'))
                  <= u2 * (t2 * (l2 - (d + 0.063) * inject_Z n)))
       by (apply area_monotone; [pose proof (holes_monotone _ n n' Hc Hn); lra
                                | assumption | assumption]));
    split; lra.
Qed.

(** The same holds for tensile rupture with a non-negative shear lag. *)
Theorem tensile_rupture_bolt_count_antitone :
  forall m d n n' s t1 l1 u1 t2 l2 u2,
  valid_method m -> (n <= n')%Z -> 0 <= d + 0.063 -> 0 <= s ->
  0 <= t1 -> 0 <= u1 -> 0 <= t2 -> 0 <= u2 ->
  exists r1 r2 r1' r2',
    connected_elem_tensile_rupture_str m (qty d inch) n s (qty t1 inch)
      (qty l1 inch) (qty u1 ksi) (qty t2 inch) (qty l2 inch) (qty u2 ksi)
      = Ok (r1, r2) /\
    connected_elem_tensile_rupture_str m (qty d inch) n' s (qty t1 inch)
      (qty l1 inch) (qty u1 ksi) (qty t2 inch) (qty l2 inch) (qty u2 ksi)
      = Ok (r1', r2') /\
    r1' <= r1 /\ r2' <= r2.
Proof.
  intros m d n n' s t1 l1 u1 t2 l2 u2 Hm Hn Hc Hs Ht1 Hu1 Ht2 Hu2.
  unfold connected_elem_tensile_rupture_str. canon.
  method_cases Hm; unfold design_pair; simpl String.eqb; cbv iota;
    (eexists _, _, _, _; split; [reflexivity | split; [reflexivity |]]);
    rewrite !Qred_correct, ?Qdiv_200;
    (assert (A1 : u1 * (t1 * (l1 - (d + 0.063) * inject_Z n')) * s
                  <= u1 * (t1 * (l1 - (d + 0.063) * inject_Z n)) * s)
       by (apply Qmult_le_compat_r; [| exact Hs];
           apply area_monotone; [pose proof (holes_monotone _ n n' Hc Hn); lra
                                | assumption | assumption]));
    (assert (A2 : u2 * (t2 * (l2 - (d + 0.063) * inject_Z n')) * s
                  <= u2 * (t2 * (l2 - (d + 0.063) * inject_Z n)) * s)
       by (apply Qmult_le_compat_r; [| exact Hs];
           apply area_monotone; [pose proof (holes_monotone _ n n' Hc Hn); lra
                                | assumption | assumption]));
    split; lra.
Qed.

(** For each part whose clear edge distance is at most twice the bolt
    diameter, bolt tearout does not exceed bolt bearing (with non-negative
    thickness and ultimate stress of that part); the two functions share
    the method factors, so this holds for ASD and LRFD alike.  Stated for
    both parts. *)
Theorem tearout_le_bearing :
  forall m d e1 e2 t1 u1 t2 u2,
  valid_method m ->
  exists r1 r2 b1 b2,
    tearout_strength_bolts m (qty d inch) (qty e1 inch) (qty e2 inch)
      (qty t1 inch) (qty u1 ksi) (qty t2 inch) (qty u2 ksi) = Ok (r1, r2) /\
    bearing_strength_bolts m (qty d inch) (qty t1 inch) (qty u1 ksi)
      (qty t2 inch) (qty u2 ksi) = Ok (b1, b2) /\
    (e1 - (d + 0.125) / 2 <= 2 * d -> 0 <= t1 -> 0 <= u1 -> r1 <= b1) /\
    (e2 - (d + 0.125) / 2 <= 2 * d -> 0 <= t2 -> 0 <= u2 -> r2 <= b2).
Proof.
  intros m d e1 e2 t1 u1 t2 u2 Hm.
  unfold tearout_strength_bolts, bearing_strength_bolts. canon.
  method_cases Hm; unfold design_pair; simpl String.eqb; cbv iota;
    (eexists _, _, _, _; split; [reflexivity | split; [reflexivity |]]);
    split; intros He Ht Hu; rewrite !Qred_correct, ?Qdiv_200;
    match goal with
    | |- context [1.2 * (?e - (d + 0.125) / 2) * ?t * ?u] =>
        assert (N : 1.2 * (e - (d + 0.125) / 2) * t * u <= 2.4 * d * t * u)
          by (apply mono3; [lra | assumption | assumption])
    end;
    lra.
Qed.

(** [min_weld_size] is monotone: a thicker thinner part never gets a
    smaller minimum weld. *)
Theorem min_weld_size_monotone :
  forall t1 t2 t1' t2' r r',
  Qmin t1 t2 <= Qmin t1' t2' ->
  min_weld_size (qty t1 inch) (qty t2 inch) = Ok (Some r) ->
  min_weld_size (qty t1' inch) (qty t2' inch) = Ok (Some r') ->
  r <= r'.
Proof.
  intros t1 t2 t1' t2' r r' H.
  unfold min_weld_size. canon.
  pose proof (min_weld_size_t_min t1 t2) as E1.
  pose proof (min_weld_size_t_min t1' t2') as E2.
  qcases; simpl; intros H1 H2; try discriminate;
    injection H1 as <-; injection H2 as <-;
    first [ exfalso; lra | apply Qle_bool_imp_le; reflexivity ].
Qed.

Lemma scale_le (w x : Q) : 0 <= w -> x <= 1 -> w * x <= w.
Proof.
  intros Hw Hx. setoid_replace w with (w * 1) at 2 by ring.
  rewrite !(Qmult_comm w). apply Qmult_le_compat_r; assumption.
Qed.

(** The base-metal check of [weld_rupture_strength] only ever lowers the
    weld material strength (when that strength is non-negative), whatever
    the thicknesses. *)
Theorem weld_rupture_le_material :
  forall m w l sides t1 u1 t2 u2 r wm,
  weld_rupture_strength m w (qty l inch) sides (qty t1 inch) (qty u1 ksi)
    (qty t2 inch) (qty u2 ksi) = Ok r ->
  weld_material_strength m w (qty l inch) sides = Ok wm ->
  0 <= wm -> r <= wm.
Proof.
  intros m w l sides t1 u1 t2 u2 r wm H Hw Hpos. revert H.
  unfold weld_rupture_strength. canon.
  rewrite weld_material_strength_reconvert, Hw.
  split_steps; try discriminate;
    qcases; simpl; intros H; injection H as <-;
    first [ apply Qle_refl
          | rewrite py_min_Qmin; apply scale_le; [exact Hpos |];
            match goal with
            | |- Qmin ?a ?b <= 1 =>
                pose proof (Q.le_min_l a b); pose proof (Q.le_min_r a b); lra
            end ].
Qed.

(** With one or two sides, [weld_rupture_strength] divides by zero when
    the weld size or either part's ultimate stress is zero: the first makes
    a required thickness zero, the second divides by it.  This happens
    before the design method is looked at. *)
Theorem weld_rupture_zero_division :
  forall m w l sides t1 u1 t2 u2,
  (sides = 1 \/ sides = 2)%Z -> (w == 0 \/ u1 == 0 \/ u2 == 0) ->
  weld_rupture_strength m w (qty l inch) sides (qty t1 inch) (qty u1 ksi)
    (qty t2 inch) (qty u2 ksi) = Err ZeroDivisionError.
Proof.
  intros m w l sides t1 u1 t2 u2 Hs Hz.
  unfold weld_rupture_strength. canon.
  destruct (Qeq_dec u1 0) as [Z1 | Z1].
  { destruct Hs as [-> | ->]; simpl Z.eqb; cbv iota;
      rewrite pdiv_zero by (rewrite Qred_correct, Z1; ring); reflexivity. }
  destruct (Qeq_dec u2 0) as [Z2 | Z2].
  { destruct Hs as [-> | ->]; simpl Z.eqb; cbv iota;
      rewrite pdiv_ok by nz; cbn [bind];
      rewrite pdiv_zero by (rewrite Qred_correct, Z2; ring); reflexivity. }
  assert (Zw : w == 0) by (destruct Hz as [? | [? | ?]]; tauto).
  destruct Hs as [-> | ->]; simpl Z.eqb; cbv iota;
    rewrite 2!pdiv_ok by nz; cbn [bind fst snd];
    rewrite pdiv_zero by (rewrite Zw; unfold Qdiv; ring); reflexivity.
Qed.

Ltac hyp_q :=
  first [ reflexivity
        | left; reflexivity
        | right; reflexivity
        | apply Qle_bool_imp_le; vm_compute; reflexivity
        | apply Z.leb_le; reflexivity ].

Lemma tearout_short_edge_nonpos_witness :
  valid_method "LRFD" /\
  exists r1 r2,
    tearout_strength_bolts "LRFD" (qty 0.75 inch) (qty 1.5 inch) (qty 0.4 inch)
      (qty 0.5 inch) (qty 58 ksi) (qty 0.5 inch) (qty 58 ksi) = Ok (r1, r2) /\
    (1.5 <= (0.75 + 0.125) / 2 -> 0 <= 0.5 -> 0 <= 58 -> r1 <= 0) /\
    (0.4 <= (0.75 + 0.125) / 2 -> 0 <= 0.5 -> 0 <= 58 -> r2 <= 0).
Proof.
  split; [hyp_q |].
  apply (tearout_short_edge_nonpos "LRFD" 0.75 1.5 0.4 0.5 58 0.5 58); hyp_q.
Defined.

Lemma tearout_edge_monotone_witness :
  valid_method "ASD" /\ 1 <= 1.5 /\ 1.25 <= 2 /\
  0 <= 0.5 /\ 0 <= 58 /\ 0 <= 0.375 /\ 0 <= 65 /\
  exists r1 r2 r1' r2',
    tearout_strength_bolts "ASD" (qty 0.75 inch) (qty 1 inch) (qty 1.25 inch)
      (qty 0.5 inch) (qty 58 ksi) (qty 0.375 inch) (qty 65 ksi) = Ok (r1, r2) /\
    tearout_strength_bolts "ASD" (qty 0.75 inch) (qty 1.5 inch) (qty 1.25 inch)
      (qty 0.5 inch) (qty 58 ksi) (qty 0.375 inch) (qty 65 ksi) = Ok (r1', r2) /\
    tearout_strength_bolts "ASD" (qty 0.75 inch) (qty 1 inch) (qty 2 inch)
      (qty 0.5 inch) (qty 58 ksi) (qty 0.375 inch) (qty 65 ksi) = Ok (r1, r2') /\
    r1 <= r1' /\ r2 <= r2'.
Proof.
  refine (conj _ (conj _ (conj _ (conj _ (conj _ (conj _ (conj _ _)))))));
    try hyp_q.
  apply (tearout_edge_monotone "ASD" 0.75 1 1.5 1.25 2 0.5 58 0.375 65); hyp_q.
Defined.

Lemma shear_rupture_bolt_count_antitone_witness :
  valid_method "LRFD" /\ (2 <= 3)%Z /\ 0 <= 0.75 + 0.063 /\
  0 <= 0.5 /\ 0 <= 58 /\ 0 <= 0.375 /\ 0 <= 65 /\
  exists r1 r2 r1' r2',
    connected_elem_shear_rupture_str "LRFD" (qty 0.75 inch) 2 (qty 0.5 inch)
      (qty 9 inch) (qty 58 ksi) (qty 0.375 inch) (qty 9 inch) (qty 65 ksi)
      = Ok (r1, r2) /\
    connected_elem_shear_rupture_str "LRFD" (qty 0.75 inch) 3 (qty 0.5 inch)
      (qty 9 inch) (qty 58 ksi) (qty 0.375 inch) (qty 9 inch) (qty 65 ksi)
      = Ok (r1', r2') /\
    r1' <= r1 /\ r2' <= r2.
Proof.
  refine (conj _ (conj _ (conj _ (conj _ (conj _ (conj _ (conj _ _)))))));
    try hyp_q.
  apply (shear_rupture_bolt_count_antitone "LRFD" 0.75 2 3 0.5 9 58 0.375 9 65);
    hyp_q.
Defined.

Lemma tensile_rupture_bolt_count_antitone_witness :
  valid_method "ASD" /\ (1 <= 4)%Z /\ 0 <= 0.875 + 0.063 /\ 0 <= 0.85 /\
  0 <= 0.5 /\ 0 <= 58 /\ 0 <= 0.5 /\ 0 <= 58 /\
  exists r1 r2 r1' r2',
    connected_elem_tensile_rupture_str "ASD" (qty 0.875 inch) 1 0.85
      (qty 0.5 inch) (qty 12 inch) (qty 58 ksi) (qty 0.5 inch) (qty 10 inch)
      (qty 58 ksi) = Ok (r1, r2) /\
    connected_elem_tensile_rupture_str "ASD" (qty 0.875 inch) 4 0.85
      (qty 0.5 inch) (qty 12 inch) (qty 58 ksi) (qty 0.5 inch) (qty 10 inch)
      (qty 58 ksi) = Ok (r1', r2') /\
    r1' <= r1 /\ r2' <= r2.
Proof.
  refine (conj _ (conj _ (conj _ (conj _ (conj _ (conj _ (conj _ (conj _ _))))))));
    try hyp_q.
  apply (tensile_rupture_bolt_count_antitone "ASD" 0.875 1 4 0.85
           0.5 12 58 0.5 10 58); hyp_q.
Defined.

Lemma tearout_le_bearing_witness :
  valid_method "LRFD" /\
  exists r1 r2 b1 b2,
    tearout_strength_bolts "LRFD" (qty 0.75 inch) (qty 1.25 inch) (qty 1 inch)
      (qty 0.5 inch) (qty 58 ksi) (qty 0.375 inch) (qty 65 ksi) = Ok (r1, r2) /\
    bearing_strength_bolts "LRFD" (qty 0.75 inch) (qty 0.5 inch) (qty 58 ksi)
      (qty 0.375 inch) (qty 65 ksi) = Ok (b1, b2) /\
    (1.25 - (0.75 + 0.125) / 2 <= 2 * 0.75 -> 0 <= 0.5 -> 0 <= 58 -> r1 <= b1) /\
    (1 - (0.75 + 0.125) / 2 <= 2 * 0.75 -> 0 <= 0.375 -> 0 <= 65 -> r2 <= b2).
Proof.
  split; [hyp_q |].
  apply (tearout_le_bearing "LRFD" 0.75 1.25 1 0.5 58 0.375 65); hyp_q.
Defined.

Lemma min_weld_size_monotone_witness :
  Qmin 0.3 0.6 <= Qmin 0.8 1 /\
  min_weld_size (qty 0.3 inch) (qty 0.6 inch) = Ok (Some 0.1875) /\
  min_weld_size (qty 0.8 inch) (qty 1 inch) = Ok (Some 0.3125) /\
  0.1875 <= 0.3125.
Proof.
  assert (H1 : Qmin 0.3 0.6 <= Qmin 0.8 1) by hyp_q.
  assert (H2 : min_weld_size (qty 0.3 inch) (qty 0.6 inch) = Ok (Some 0.1875))
    by (vm_compute; reflexivity).
  assert (H3 : min_weld_size (qty 0.8 inch) (qty 1 inch) = Ok (Some 0.3125))
    by (vm_compute; reflexivity).
  exact (conj H1 (conj H2 (conj H3
           (min_weld_size_monotone 0.3 0.6 0.8 1 0.1875 0.3125 H1 H2 H3)))).
Defined.

(** A thin part 1 (0.1 in against the 0.213 in a 1/4 in one-sided weld on
    58 ksi needs), so that the base metal governs. *)
Definition thin_part_rupture : Q :=
  Eval vm_compute in
  match weld_rupture_strength "LRFD" 4 (qty 6 inch) 1 (qty 0.1 inch) (qty 58 ksi)
          (qty 0.5 inch) (qty 58 ksi) with
  | Ok r => r
  | Err _ => 0
  end.

Definition thin_part_material : Q :=
  Eval vm_compute in
  match weld_material_strength "LRFD" 4 (qty 6 inch) 1 with
  | Ok r => r
  | Err _ => 0
  end.

Lemma weld_rupture_le_material_witness :
  weld_rupture_strength "LRFD" 4 (qty 6 inch) 1 (qty 0.1 inch) (qty 58 ksi)
    (qty 0.5 inch) (qty 58 ksi) = Ok thin_part_rupture /\
  weld_material_strength "LRFD" 4 (qty 6 inch) 1 = Ok thin_part_material /\
  0 <= thin_part_material /\
  thin_part_rupture <= thin_part_material.
Proof.
  assert (H1 : weld_rupture_strength "LRFD" 4 (qty 6 inch) 1 (qty 0.1 inch)
                 (qty 58 ksi) (qty 0.5 inch) (qty 58 ksi) = Ok thin_part_rupture)
    by (vm_compute; reflexivity).
  assert (H2 : weld_material_strength "LRFD" 4 (qty 6 inch) 1 = Ok thin_part_material)
    by (vm_compute; reflexivity).
  assert (H3 : 0 <= thin_part_material) by hyp_q.
  exact (conj H1 (conj H2 (conj H3
           (weld_rupture_le_material "LRFD" 4 6 1 0.1 58 0.5 58
              thin_part_rupture thin_part_material H1 H2 H3)))).
Defined.

Lemma weld_rupture_zero_division_witness :
  (2 = 1 \/ 2 = 2)%Z /\ (4 == 0 \/ 0 == 0 \/ 58 == 0) /\
  weld_rupture_strength "XYZ" 4 (qty 6 inch) 2 (qty 0.5 inch) (qty 0 ksi)
    (qty 0.5 inch) (qty 58 ksi) = Err ZeroDivisionError.
Proof.
  assert (H1 : (2 = 1 \/ 2 = 2)%Z) by (right; reflexivity).
  assert (H2 : 4 == 0 \/ 0 == 0 \/ 58 == 0) by (right; left; reflexivity).
  exact (conj H1 (conj H2
           (weld_rupture_zero_division "XYZ" 4 6 2 0.5 0 0.5 58 H1 H2))).
Defined.
